(** * BlurAnything backend: a shallow embedding of [backend/app.py] and
    [backend/detect.py], and the properties of the detection endpoint.

    The two Python modules are embedded as the Rocq modules [Detect] and
    [App].  Python values that end up in a response are values of [pyval];
    tensor items are IEEE binary64 floats ([PrimFloat.float]); a computation
    that may raise and that calls into the outside world (the upload, PIL,
    numpy, ultralytics, the logger) is a value of [M], a writer over the
    trace of outside calls layered over an exception result.

    The outside world is not part of the repository: it is the interface
    [Externals], and every function of the pipeline is stated for an
    arbitrary implementation of it. *)

From Stdlib Require Import ZArith List Bool Ascii String Lia.
From Stdlib Require Import Uint63 PrimFloat FloatOps SpecFloat.
From stdpp Require Import base option list gmap strings.

Local Open Scope string_scope.
Local Open Scope Z_scope.

(** ** Python strings: the methods of [str] the code calls *)

Module PyStr.

(** [str.lower] on ASCII text: a code point in ["A".."Z"] moves 32 up. *)
Definition lower_ascii (c : ascii) : ascii :=
  let n := N_of_ascii c in
  if ((65 <=? n)%N && (n <=? 90)%N)%bool then ascii_of_N (n + 32) else c.

Fixpoint lower (s : string) : string :=
  match s with
  | EmptyString => EmptyString
  | String c rest => String (lower_ascii c) (lower rest)
  end.

(** [s[n:]] for [0 <= n]. *)
Fixpoint drop (n : nat) (s : string) : string :=
  match n, s with
  | O, _ => s
  | S _, EmptyString => EmptyString
  | S k, String _ rest => drop k rest
  end.

(** [s.endswith(suffix)]: the suffix is not longer than [s], and the last
    [len(suffix)] characters of [s] are the suffix. *)
Definition endswith (s suffix : string) : bool :=
  (String.length suffix <=? String.length s)%nat
  && String.eqb (drop (String.length s - String.length suffix) s) suffix.

(** [s.endswith((a, b, ...))]: one of the suffixes of the tuple matches. *)
Definition endswith_any (s : string) (suffixes : list string) : bool :=
  existsb (endswith s) suffixes.

(** [repr] of a string without quotes or escapes in it. *)
Definition repr (s : string) : string := "'" +:+ s +:+ "'".

(** [sep.join(parts)]. *)
Fixpoint join (sep : string) (parts : list string) : string :=
  match parts with
  | [] => ""
  | [p] => p
  | p :: rest => p +:+ sep +:+ join sep rest
  end.

(** [repr] of a list of strings, as an f-string renders it. *)
Definition repr_list (l : list string) : string :=
  "[" +:+ join ", " (map repr l) +:+ "]".

End PyStr.

(** ** Values, exceptions and effects *)

Set Warnings "-register-all".

(** The Python values the endpoint puts in a response body.  A dict keeps
    its insertion order, and every dict built here has distinct keys. *)
Inductive pyval : Type :=
| PyNone
| PyStr (s : string)
| PyInt (z : Z)
| PyFloat (f : float)
| PyList (items : list pyval)
| PyDict (items : list (string * pyval)).

(** Truth value testing, [bool(v)]: the empty containers, the empty string,
    zero and [None] are false. *)
Definition truthy (v : pyval) : bool :=
  match v with
  | PyNone => false
  | PyStr s => negb (String.eqb s "")
  | PyInt z => negb (z =? 0)
  | PyFloat f => negb (PrimFloat.eqb f 0%float)
  | PyList items => match items with [] => false | _ => true end
  | PyDict items => match items with [] => false | _ => true end
  end.

(** What [json.dumps(v, allow_nan=False)] accepts: no float of [v] is a NaN
    or an infinity. *)
Fixpoint json_compliant (v : pyval) : bool :=
  match v with
  | PyFloat f => PrimFloat.is_finite f
  | PyList items => forallb json_compliant items
  | PyDict items => forallb (fun kv => json_compliant (snd kv)) items
  | _ => true
  end.

(** The exceptions that can travel through the pipeline. *)
Inductive exn : Type :=
| ValueError (msg : string)
| IndexError
| KeyError
| AttributeError (attr : string)
| OverflowError
| UnidentifiedImageError
| OSError (msg : string)
| RuntimeError (msg : string).

Inductive pyresult (A : Type) : Type :=
| Ok (a : A)
| Raise (e : exn).
Arguments Ok {A} a.
Arguments Raise {A} e.

(** A numpy array as [np.array(image)] produces it: two axes for a
    single-band image, three axes (height, width, channel) otherwise. *)
Inductive ndarray : Type :=
| Array2 (rows : list (list Z))
| Array3 (rows : list (list (list Z))).

(** The calls that leave the process, in the order they happen. *)
Inductive event : Type :=
| EvLog (fmt : string)
| EvFileRead
| EvImageOpen (image_data : list Byte.byte)
| EvNpArray
| EvModelInit (weights : string)
| EvInference (image_np : ndarray)
| EvSave (filename : string).

(** A computation: the trace it leaves, and its value or the exception it
    raised. *)
Definition M (A : Type) : Type := list event * pyresult A.

Definition ret {A} (a : A) : M A := ([], Ok a).
Definition raise {A} (e : exn) : M A := ([], Raise e).
Definition emit (ev : event) : M unit := ([ev], Ok tt).
Definition lift {A} (r : pyresult A) : M A := ([], r).

Definition bind {A B} (m : M A) (k : A -> M B) : M B :=
  match m with
  | (t, Ok a) => let '(t', r) := k a in ((t ++ t')%list, r)
  | (t, Raise e) => (t, Raise e)
  end.

Declare Scope py_scope.
Delimit Scope py_scope with py.
Notation "x <- m ;; k" := (bind m (fun x => k))
  (at level 100, m at next level, right associativity) : py_scope.
Notation "m ;;; k" := (bind m (fun _ => k))
  (at level 100, right associativity) : py_scope.

Definition trace {A} (m : M A) : list event := fst m.
Definition outcome {A} (m : M A) : pyresult A := snd m.

(** [l[i]] on a sequence, for [0 <= i]. *)
Definition getitem {A} (l : list A) (i : nat) : pyresult A :=
  match l !! i with
  | Some x => Ok x
  | None => Raise IndexError
  end.

(** [d[k]] on a dict with integer keys. *)
Definition getkey (d : gmap Z string) (k : Z) : pyresult string :=
  match d !! k with
  | Some x => Ok x
  | None => Raise KeyError
  end.

(** [int(x)] on a float: truncation towards zero; it raises on a NaN and on
    an infinity. *)
Definition int_of_float (x : float) : pyresult Z :=
  match Prim2SF x with
  | S754_zero _ => Ok 0
  | S754_finite s m e =>
      let mag := if 0 <=? e then Z.shiftl (Z.pos m) e
                 else Z.shiftr (Z.pos m) (- e) in
      Ok (if s then - mag else mag)
  | S754_infinity _ => Raise OverflowError
  | S754_nan => Raise (ValueError "cannot convert float NaN to integer")
  end.

(** ** The outside world *)

(** What a YOLO call gives back for one image: the boxes ([None] when the
    object has no [boxes] attribute), the label table, the timings and the
    (height, width) of the image it was run on.  [data], [cls] and [conf]
    are the three tensors the code indexes. *)
Record Boxes : Type := mkBoxes {
  data : list (list float);
  cls : list float;
  conf : list float
}.

Record Results : Type := mkResults {
  boxes : option Boxes;
  names : gmap Z string;
  speed : pyval;
  orig_shape : nat * nat
}.

(** PIL, numpy and ultralytics, as the pipeline calls them.  Each call may
    raise. *)
Class Externals : Type := {
  PILImage : Type;
  YOLOModel : Type;
  (** [Image.open(BytesIO(image_data))] *)
  Image_open : list Byte.byte -> pyresult PILImage;
  (** [np.array(image)] *)
  np_array : PILImage -> pyresult ndarray;
  (** [YOLO(model_path)] *)
  YOLO : string -> pyresult YOLOModel;
  (** [model(image_np)] *)
  YOLO_call : YOLOModel -> ndarray -> pyresult (list Results);
  (** [result.save(filename=...)] *)
  Results_save : Results -> string -> pyresult unit
}.

(** An outside call: it is recorded, then it returns or raises. *)
Definition call {A} (ev : event) (r : pyresult A) : M A :=
  (emit ev ;;; lift r)%py.

(** [logger.info(fmt, ...)] *)
Definition logger_info (fmt : string) : M unit := emit (EvLog fmt).

(** [os.path.join] on a POSIX system, for relative components. *)
Definition os_path_join (parts : list string) : string := PyStr.join "/" parts.

(** ** backend/detect.py *)

Module Detect.
Section WithExternals.
Context {E : Externals}.
Local Open Scope py_scope.

Definition MODEL_PATHS : list (string * string) :=
  [("fast", "models/yolov8n.pt"); ("accurate", "models/yolov8x.pt")].

(** [MODEL_PATHS.keys()], in insertion order. *)
Definition keys (d : list (string * string)) : list string := map fst d.

(** [MODEL_PATHS.get(k)]: the first binding of [k]. *)
Fixpoint lookup_path (d : list (string * string)) (k : string) : option string :=
  match d with
  | [] => None
  | (k', v) :: rest => if String.eqb k k' then Some v else lookup_path rest k
  end.

Definition load_model (type_model : string) : M YOLOModel :=
  logger_info "Loading YOLO model: %s" ;;;
  match lookup_path MODEL_PATHS type_model with
  | None =>
      raise (ValueError ("Invalid model type. Available options: "
                         +:+ PyStr.repr_list (keys MODEL_PATHS) +:+ "."))
  | Some model_path => call (EvModelInit model_path) (YOLO model_path)
  end.

(** [image_np[:, :, ::-1]]: the last of three axes reversed; an array of
    two axes has no third one to index. *)
Definition reverse_last_axis (image_np : ndarray) : pyresult ndarray :=
  match image_np with
  | Array2 _ => Raise IndexError
  | Array3 rows => Ok (Array3 (map (map (@rev Z)) rows))
  end.

Definition perform_detection (model : YOLOModel) (image : PILImage)
  : M (list Results) :=
  image_np <- call EvNpArray (np_array image) ;;
  image_np <- lift (reverse_last_axis image_np) ;;
  call (EvInference image_np) (YOLO_call model image_np).

(** The record of one detection. *)
Definition detection_record (name : string) (confidence x_min y_min x_max y_max : float)
  : pyval :=
  PyDict [("object", PyStr name);
          ("confidence", PyFloat confidence);
          ("x_min", PyFloat x_min);
          ("y_min", PyFloat y_min);
          ("x_max", PyFloat x_max);
          ("y_max", PyFloat y_max)].

(** The body of [for i, box_data in enumerate(result.boxes.data)], from
    index [i] on. *)
Fixpoint extract_rows (result : Results) (b : Boxes) (i : nat)
    (rows : list (list float)) : pyresult (list pyval) :=
  match rows with
  | [] => Ok []
  | box_data :: rest =>
      match getitem (cls b) i with Raise e => Raise e | Ok c =>
      match int_of_float c with Raise e => Raise e | Ok class_id =>
      match getitem (conf b) i with Raise e => Raise e | Ok cf =>
      match getkey (names result) class_id with Raise e => Raise e | Ok name =>
      match getitem box_data 0 with Raise e => Raise e | Ok x_min =>
      match getitem box_data 1 with Raise e => Raise e | Ok y_min =>
      match getitem box_data 2 with Raise e => Raise e | Ok x_max =>
      match getitem box_data 3 with Raise e => Raise e | Ok y_max =>
      match extract_rows result b (S i) rest with Raise e => Raise e | Ok tl =>
        Ok (detection_record name cf x_min y_min x_max y_max :: tl)
      end end end end end end end end end
  end.

Definition extract_detection_results (results : list Results) : M (list pyval) :=
  logger_info "Extracting YOLO Detection Results" ;;;
  result <- lift (getitem results 0) ;;
  detected_objects <-
    match boxes result with
    | Some b =>
        if (0 <? length (data b))%nat
        then lift (extract_rows result b 0 (data b))
        else ret []
    | None => ret []
    end ;;
  logger_info "YOLO Detection Results: %s" ;;;
  match boxes result with
  | None => raise (AttributeError "boxes")
  | Some _ => logger_info "YOLO Detection Results Boxes: %s "
  end ;;;
  ret detected_objects.

Definition render_and_save_image (results : list Results) : M string :=
  let inferred_image_path :=
    os_path_join ["static"; "inferences"; "inferred_image.jpg"] in
  result <- lift (getitem results 0) ;;
  call (EvSave inferred_image_path) (Results_save result inferred_image_path) ;;;
  ret inferred_image_path.

(** [type_model] is [None] when the caller leaves the argument out; the
    default of the signature is ["accurate"]. *)
Definition detect_objects (image_data : list Byte.byte)
    (type_model : option string) : M pyval :=
  let type_model := default "accurate" type_model in
  image <- call (EvImageOpen image_data) (Image_open image_data) ;;
  model <- load_model type_model ;;
  results <- perform_detection model image ;;
  detected_objects <- extract_detection_results results ;;
  inferred_image_path <- render_and_save_image results ;;
  result <- lift (getitem results 0) ;;
  ret (PyDict [("detected_objects", PyList detected_objects);
               ("speed", speed result);
               ("inferred_image_path", PyStr inferred_image_path)]).

End WithExternals.
End Detect.

(** ** backend/app.py *)

Module App.
Section WithExternals.
Context {E : Externals}.
Local Open Scope py_scope.

Record UploadFile : Type := mkUploadFile {
  filename : option string;
  file_content : list Byte.byte
}.

Record JSONResponse : Type := mkJSONResponse {
  content : pyval;
  status_code : Z
}.

(** [JSONResponse(content=..., status_code=...)]: the body is rendered when
    the response is built, by [json.dumps] with [allow_nan=False], which
    raises [ValueError] on a float that is a NaN or an infinity (later
    versions of the library add the value to this message). *)
Definition JSONResponse_init (content : pyval) (status_code : Z)
  : pyresult JSONResponse :=
  if json_compliant content
  then Ok (mkJSONResponse content status_code)
  else Raise (ValueError "Out of range float values are not JSON compliant").

Definition create_response (content : pyval) (status_code : Z)
  : pyresult JSONResponse :=
  JSONResponse_init content status_code.

Definition validate_file (file : UploadFile) : bool * string :=
  match filename file with
  | None => (false, "No file name provided.")
  | Some name =>
      if negb (PyStr.endswith_any (PyStr.lower name) [".jpg"; ".jpeg"; ".png"])
      then (false, "Invalid file type. Allowed types: jpg, jpeg, png.")
      else (true, "")
  end.

(** [await file.read()] *)
Definition file_read (file : UploadFile) : M (list Byte.byte) :=
  call EvFileRead (Ok (file_content file)).

(** The handler of [POST /detect/].  [file] is [None] when the handler
    sees a false value for it. *)
Definition detect (file : option UploadFile) (type_model : string)
  : M JSONResponse :=
  match file with
  | None =>
      lift (create_response (PyDict [("error", PyStr "No image file provided")]) 400)
  | Some file =>
      let '(valid, message) := validate_file file in
      if negb valid
      then lift (create_response (PyDict [("error", PyStr message)]) 400)
      else
        image_data <- file_read file ;;
        results <- Detect.detect_objects image_data (Some type_model) ;;
        if truthy results
        then lift (create_response results 200)
        else lift (create_response
                     (PyDict [("message", PyStr "No objects detected")]) 200)
  end.

End WithExternals.
End App.

(** ** A test double of the outside world

    The examples below run the pipeline on a stand-in for PIL, numpy and
    ultralytics: a buffer is an image when it starts with the JPEG or the
    PNG signature, every image decodes to [pixels], every weights file
    loads, and the model answers [raw] whatever the image. *)

Module Double.

Definition jpeg_signature : list Byte.byte := [Byte.xff; Byte.xd8; Byte.xff].
Definition png_signature : list Byte.byte :=
  [Byte.x89; Byte.x50; Byte.x4e; Byte.x47].

Definition byte_eqb (a b : Byte.byte) : bool :=
  (Byte.to_N a =? Byte.to_N b)%N.

Fixpoint starts_with (prefix buf : list Byte.byte) : bool :=
  match prefix, buf with
  | [], _ => true
  | _ :: _, [] => false
  | p :: prefix', b :: buf' => byte_eqb p b && starts_with prefix' buf'
  end.

Definition image_open (pixels : ndarray) (buf : list Byte.byte) : pyresult ndarray :=
  if starts_with jpeg_signature buf || starts_with png_signature buf
  then Ok pixels
  else Raise UnidentifiedImageError.

Definition world (pixels : ndarray) (raw : list Results) : Externals := {|
  PILImage := ndarray;
  YOLOModel := string;
  Image_open := image_open pixels;
  np_array := fun image => Ok image;
  YOLO := fun model_path => Ok model_path;
  YOLO_call := fun _ _ => Ok raw;
  Results_save := fun _ _ => Ok tt
|}.

(** A 1 x 2 image: a red pixel and a blue-ish one. *)
Definition two_pixels : ndarray := Array3 [[[255; 0; 0]; [10; 20; 30]]].

Definition coco_names : gmap Z string :=
  <[0 := "person"]> (<[2 := "car"]> ∅).

Definition timings : pyval :=
  PyDict [("preprocess", PyFloat 1.5%float);
          ("inference", PyFloat 40%float);
          ("postprocess", PyFloat 0.5%float)].

(** The model saw nothing. *)
Definition no_detection : Results :=
  mkResults (Some (mkBoxes [] [] [])) coco_names timings (1%nat, 2%nat).

(** The model saw one person. *)
Definition one_person : Results :=
  mkResults
    (Some (mkBoxes [[34; 63; 200; 360; 0.5; 0]%float] [0%float] [0.5%float]))
    coco_names timings (480%nat, 640%nat).

(** A raw output no real image gives, but a well-formed one: a confidence
    above one and a box whose corners are swapped. *)
Definition out_of_range : Results :=
  mkResults
    (Some (mkBoxes [[50; 60; 10; 20; 1.5; 0]%float] [0%float] [1.5%float]))
    coco_names timings (100%nat, 100%nat).


(** The first bytes of a JPEG file. *)
Definition jpeg_bytes : list Byte.byte :=
  [Byte.xff; Byte.xd8; Byte.xff; Byte.xe0; Byte.x00; Byte.x10].

End Double.

(** ** What the specification asks, as predicates on what the code gives *)

Module Spec.


(** A body that is a JSON array. *)
Definition is_array (v : pyval) : bool :=
  match v with
  | PyList _ => true
  | _ => false
  end.

(** The pixel at row [i], column [j] of an array of three axes. *)
Definition pixel (a : ndarray) (i j : nat) : option (list Z) :=
  match a with
  | Array2 _ => None
  | Array3 rows => row ← rows !! i; row !! j
  end.

Definition float_of_nat (n : nat) : float :=
  PrimFloat.of_uint63 (Uint63.of_Z (Z.of_nat n)).

(** [lo <= x <= hi], for a finite [x]. *)
Definition within (lo x hi : float) : bool :=
  PrimFloat.is_finite x && PrimFloat.leb lo x && PrimFloat.leb x hi.

(** The bounds of a DetectionRecord, for an image of the given
    (height, width). *)
Definition in_bounds (shape : nat * nat)
    (confidence x_min y_min x_max y_max : float) : bool :=
  let '(height, width) := shape in
  PrimFloat.leb 0 confidence && PrimFloat.leb confidence 1
  && PrimFloat.leb x_min x_max && PrimFloat.leb y_min y_max
  && within 0 x_min (float_of_nat width) && within 0 x_max (float_of_nat width)
  && within 0 y_min (float_of_nat height) && within 0 y_max (float_of_nat height).

(** [d.get(key)] on the items of a dict. *)
Fixpoint dict_get (items : list (string * pyval)) (key : string) : option pyval :=
  match items with
  | [] => None
  | (k, v) :: rest => if String.eqb k key then Some v else dict_get rest key
  end.

Definition float_field (items : list (string * pyval)) (key : string) : option float :=
  match dict_get items key with
  | Some (PyFloat f) => Some f
  | _ => None
  end.

(** The bounds, read off a record of the response. *)
Definition record_in_bounds (shape : nat * nat) (record : pyval) : bool :=
  match record with
  | PyDict items =>
      match float_field items "confidence", float_field items "x_min",
            float_field items "y_min", float_field items "x_max",
            float_field items "y_max" with
      | Some c, Some x0, Some y0, Some x1, Some y1 => in_bounds shape c x0 y0 x1 y1
      | _, _, _, _, _ => false
      end
  | _ => false
  end.

(** Record [record] is row [i] of the raw output, value for value: the
    label of the class of [cls[i]], the confidence [conf[i]] and the four
    first items of [box_data], as they are. *)
Definition row_record (result : Results) (b : Boxes) (i : nat)
    (box_data : list float) (record : pyval) : Prop :=
  exists (c : float) (class_id : Z) (name : string) (cf x_min y_min x_max y_max : float),
    cls b !! i = Some c
    /\ int_of_float c = Ok class_id
    /\ conf b !! i = Some cf
    /\ names result !! class_id = Some name
    /\ box_data !! 0%nat = Some x_min
    /\ box_data !! 1%nat = Some y_min
    /\ box_data !! 2%nat = Some x_max
    /\ box_data !! 3%nat = Some y_max
    /\ record = Detect.detection_record name cf x_min y_min x_max y_max
    /\ record_in_bounds (orig_shape result) record
       = in_bounds (orig_shape result) cf x_min y_min x_max y_max.

End Spec.

(** ** The run of a request, stage by stage *)

Module Run.

(** The one place rendered images are written to. *)
Definition saved_path : string := "static/inferences/inferred_image.jpg".

(** The outside calls of a run of [detect_objects] in which every stage
    returned: open, load, convert, infer, the three log lines of the
    normalizer, save. *)
Definition full_trace (image_data : list Byte.byte) (model_path : string)
    (image_np : ndarray) : list event :=
  [EvImageOpen image_data;
   EvLog "Loading YOLO model: %s";
   EvModelInit model_path;
   EvNpArray;
   EvInference image_np;
   EvLog "Extracting YOLO Detection Results";
   EvLog "YOLO Detection Results: %s";
   EvLog "YOLO Detection Results Boxes: %s ";
   EvSave saved_path].

(** The body of a success response. *)
Definition inference_result (detected_objects : list pyval) (timings : pyval) : pyval :=
  PyDict [("detected_objects", PyList detected_objects);
          ("speed", timings);
          ("inferred_image_path", PyStr saved_path)].

(** Row [i] can be read: [cls[i]] and [conf[i]] exist, [int(cls[i])] is
    defined and a key of the label table, and the row has four items. *)
Definition row_readable (result : Results) (b : Boxes) (i : nat)
    (box_data : list float) : Prop :=
  exists (c : float) (class_id : Z),
    cls b !! i = Some c
    /\ int_of_float c = Ok class_id
    /\ is_Some (conf b !! i)
    /\ is_Some (names result !! class_id)
    /\ (4 <= length box_data)%nat.

(** The exceptions the normalizer can raise by itself. *)
Definition normalizer_error (e : exn) : Prop :=
  e = IndexError \/ e = KeyError \/ e = OverflowError
  \/ e = ValueError "cannot convert float NaN to integer"
  \/ e = AttributeError "boxes".

(** The first result of a batch, cut down to what the normalizer reads:
    four columns of [data], [cls], [conf] and the labels. *)
Definition read_part (result : Results) (timings : pyval) (shape : nat * nat)
    : Results :=
  mkResults
    (b ← boxes result; Some (mkBoxes (take 4 <$> data b) (cls b) (conf b)))
    (names result) timings shape.

End Run.

(** ** Test doubles that fail *)

Module Faults.

(** A world whose weights files are missing. *)
Definition no_weights (pixels : ndarray) : Externals := {|
  PILImage := ndarray;
  YOLOModel := string;
  Image_open := Double.image_open pixels;
  np_array := fun image => Ok image;
  YOLO := fun _ => Raise (OSError "No such file or directory");
  YOLO_call := fun _ _ => Ok [];
  Results_save := fun _ _ => Ok tt
|}.

(** A world whose [static/inferences] directory cannot be written. *)
Definition no_save (pixels : ndarray) (raw : list Results) : Externals := {|
  PILImage := ndarray;
  YOLOModel := string;
  Image_open := Double.image_open pixels;
  np_array := fun image => Ok image;
  YOLO := fun model_path => Ok model_path;
  YOLO_call := fun _ _ => Ok raw;
  Results_save := fun _ _ => Raise (OSError "Permission denied")
|}.

(** A 1 x 2 single-band image. *)
Definition gray_pixels : ndarray := Array2 [[0; 255]].

(** A 1 x 1 image with an alpha channel. *)
Definition rgba_pixel : ndarray := Array3 [[[1; 2; 3; 255]]].

(** A result object without a [boxes] attribute. *)
Definition no_boxes : Results :=
  mkResults None Double.coco_names Double.timings (1%nat, 2%nat).

(** A raw output whose row has seven columns, with other timings. *)
Definition tracked_person : Results :=
  mkResults
    (Some (mkBoxes [[34; 63; 200; 360; 7; 0.5; 0]%float] [0%float] [0.5%float]))
    Double.coco_names PyNone (480%nat, 640%nat).

(** A raw output whose confidence is a NaN. *)
Definition nan_confidence : Results :=
  mkResults
    (Some (mkBoxes [[34; 63; 200; 360]%float] [0%float] [PrimFloat.nan]))
    Double.coco_names Double.timings (480%nat, 640%nat).

(** A raw output whose class, 7, has no label. *)
Definition unlabelled : Results :=
  mkResults
    (Some (mkBoxes [[1; 2; 3; 4; 0.5; 7]%float] [7%float] [0.5%float]))
    Double.coco_names Double.timings (10%nat, 10%nat).

End Faults.

(** * Properties *)

(** ** Strings *)

Module PyStrFacts.
Import PyStr.

Lemma length_app (p s : string) :
  String.length (p +:+ s) = (String.length p + String.length s)%nat.
Proof. induction p as [|c p IH]; simpl; [reflexivity | now rewrite IH]. Qed.

Lemma drop_app (p s : string) : drop (String.length p) (p +:+ s) = s.
Proof. induction p as [|c p IH]; simpl; [reflexivity | exact IH]. Qed.

(** Whatever is dropped, the rest is a suffix. *)
Lemma drop_suffix (n : nat) (s : string) : exists p, s = p +:+ drop n s.
Proof.
  revert s; induction n as [|n IH]; intros s.
  - exists ""; reflexivity.
  - destruct s as [|c s]; simpl.
    + exists ""; reflexivity.
    + destruct (IH s) as [p Hp]. exists (String c p).
      change (String c s = String c (p +:+ drop n s)). now f_equal.
Qed.

(** [endswith] decides "is a suffix of". *)
Lemma endswith_spec (s suffix : string) :
  endswith s suffix = true <-> exists p, s = p +:+ suffix.
Proof.
  unfold endswith. rewrite andb_true_iff, Nat.leb_le, String.eqb_eq. split.
  - intros [_ Hd]. destruct (drop_suffix (String.length s - String.length suffix) s)
      as [p Hp]. exists p. now rewrite Hd in Hp.
  - intros [p ->]. rewrite length_app. split; [lia|].
    replace (String.length p + String.length suffix - String.length suffix)%nat
      with (String.length p) by lia.
    apply drop_app.
Qed.

Lemma endswith_any_spec (s : string) (suffixes : list string) :
  endswith_any s suffixes = true
  <-> exists suffix p, In suffix suffixes /\ s = p +:+ suffix.
Proof.
  unfold endswith_any. rewrite existsb_exists. split.
  - intros [x [Hin Hx]]. apply endswith_spec in Hx as [p Hp]. eauto.
  - intros [x [p [Hin Hp]]]. exists x. split; [exact Hin|].
    apply endswith_spec. eauto.
Qed.

Lemma lower_ascii_idem (c : ascii) : lower_ascii (lower_ascii c) = lower_ascii c.
Proof.
  destruct c as [[] [] [] [] [] [] [] []]; reflexivity.
Qed.

Lemma lower_idem (s : string) : lower (lower s) = lower s.
Proof.
  induction s as [|c s IH]; simpl; [reflexivity|].
  now rewrite lower_ascii_idem, IH.
Qed.

End PyStrFacts.

(** ** The monad *)

Lemma bind_ok {A B} (t : list event) (a : A) (k : A -> M B) :
  bind (t, Ok a) k = ((t ++ fst (k a))%list, snd (k a)).
Proof. unfold bind. now destruct (k a). Qed.

Lemma bind_raise {A B} (t : list event) (e : exn) (k : A -> M B) :
  bind (t, Raise e) k = (t, Raise e).
Proof. reflexivity. Qed.

(** ** Validation of the upload *)

Section ValidateFile.
Import App.

Lemma validate_file_named (name : string) (bytes : list Byte.byte) :
  validate_file (mkUploadFile (Some name) bytes)
  = if PyStr.endswith_any (PyStr.lower name) [".jpg"; ".jpeg"; ".png"]
    then (true, "")
    else (false, "Invalid file type. Allowed types: jpg, jpeg, png.").
Proof.
  unfold validate_file; cbn [filename].
  now destruct (PyStr.endswith_any _ _).
Qed.

(** C9. The extension check of [validate_file] does not look at case: a
    named upload is accepted exactly when its lowercased name is some
    prefix followed by [.jpg], [.jpeg] or [.png]; the verdict on a name
    and on its lowercased form is the same; [.JPG] and [.Png] pass. *)
Theorem validate_file_case_insensitive :
  forall (name : string) (bytes : list Byte.byte),
    (fst (validate_file (mkUploadFile (Some name) bytes)) = true
     <-> exists p, PyStr.lower name = p +:+ ".jpg"
                   \/ PyStr.lower name = p +:+ ".jpeg"
                   \/ PyStr.lower name = p +:+ ".png")
    /\ validate_file (mkUploadFile (Some name) bytes)
       = validate_file (mkUploadFile (Some (PyStr.lower name)) bytes)
    /\ validate_file (mkUploadFile (Some "HOLIDAY.JPG") bytes) = (true, "")
    /\ validate_file (mkUploadFile (Some "scan.Png") bytes) = (true, "")
    /\ validate_file (mkUploadFile (Some "scan.gif") bytes)
       = (false, "Invalid file type. Allowed types: jpg, jpeg, png.").
Proof.
  intros name bytes. split; [|split; [|repeat split]].
  - rewrite validate_file_named.
    destruct (PyStr.endswith_any (PyStr.lower name) [".jpg"; ".jpeg"; ".png"]) eqn:Hany;
      cbn [fst].
    + split; [intros _|reflexivity].
      apply PyStrFacts.endswith_any_spec in Hany as [suffix [p [Hin Hp]]].
      exists p. simpl in Hin. intuition (subst; auto).
    + split; [discriminate|]. intros [p Hp].
      assert (PyStr.endswith_any (PyStr.lower name) [".jpg"; ".jpeg"; ".png"] = true)
        as Habs; [|congruence].
      apply PyStrFacts.endswith_any_spec.
      destruct Hp as [Hp|[Hp|Hp]];
        [exists ".jpg"|exists ".jpeg"|exists ".png"]; exists p; simpl; auto.
  - rewrite !validate_file_named. now rewrite PyStrFacts.lower_idem.
Qed.

End ValidateFile.

(** ** Outside calls and the model registry *)

Lemma call_ok {A} (ev : event) (a : A) : call ev (Ok a) = ([ev], Ok a).
Proof. reflexivity. Qed.


Section Registry.
Context {E : Externals}.
Import Detect.

(** The registry holds two selectors, and nothing else. *)
Lemma lookup_path_MODEL_PATHS (type_model : string) :
  lookup_path MODEL_PATHS type_model
  = if String.eqb type_model "fast" then Some "models/yolov8n.pt"
    else if String.eqb type_model "accurate" then Some "models/yolov8x.pt"
    else None.
Proof. reflexivity. Qed.

Lemma load_model_known (type_model model_path : string) :
  lookup_path MODEL_PATHS type_model = Some model_path ->
  load_model type_model
  = ([EvLog "Loading YOLO model: %s"; EvModelInit model_path], YOLO model_path).
Proof.
  intros Hp. unfold load_model. rewrite Hp. unfold call, logger_info.
  now destruct (YOLO model_path).
Qed.

Lemma load_model_unknown (type_model : string) :
  type_model <> "fast" ->
  type_model <> "accurate" ->
  load_model type_model
  = ([EvLog "Loading YOLO model: %s"], Raise (ValueError
              "Invalid model type. Available options: ['fast', 'accurate'].")).
Proof.
  intros Hfast Haccurate. unfold load_model.
  rewrite lookup_path_MODEL_PATHS.
  apply String.eqb_neq in Hfast, Haccurate. now rewrite Hfast, Haccurate.
Qed.

End Registry.

(** ** The endpoint: what is answered before the pipeline runs *)

Section Endpoint.
Context {E : Externals}.
Import App.

(** A file that fails validation is answered at once, with the message of
    [validate_file] and without any outside call. *)
Lemma detect_invalid_file (file : UploadFile) (type_model message : string) :
  validate_file file = (false, message) ->
  detect (Some file) type_model
  = ([], Ok (mkJSONResponse (PyDict [("error", PyStr message)]) 400)).
Proof. intros Hv. unfold detect. now rewrite Hv. Qed.

(** A file that passes validation is read and handed to the pipeline. *)
Lemma detect_valid_file (file : UploadFile) (type_model : string) :
  fst (validate_file file) = true ->
  detect (Some file) type_model
  = bind (file_read file) (fun image_data =>
    bind (Detect.detect_objects image_data (Some type_model)) (fun results =>
    if truthy results
    then lift (create_response results 200)
    else lift (create_response
                 (PyDict [("message", PyStr "No objects detected")]) 200))).
Proof.
  intros Hv. unfold detect. destruct (validate_file file) as [valid message].
  simpl in Hv. now subst valid.
Qed.

Lemma validate_file_unsupported (file : UploadFile) (name : string) :
  filename file = Some name ->
  PyStr.endswith_any (PyStr.lower name) [".jpg"; ".jpeg"; ".png"] = false ->
  validate_file file = (false, "Invalid file type. Allowed types: jpg, jpeg, png.").
Proof. intros Hn Hext. unfold validate_file. now rewrite Hn, Hext. Qed.

(** C8. An upload whose name does not end, case apart, in [.jpg], [.jpeg]
    or [.png] is answered 400 with the message that lists the allowed
    types, and the trace is empty: the upload is not read, nothing is
    decoded, no model is loaded or run. *)
Theorem detect_unsupported_extension_no_work :
  forall (file : UploadFile) (name type_model : string),
    filename file = Some name ->
    PyStr.endswith_any (PyStr.lower name) [".jpg"; ".jpeg"; ".png"] = false ->
    trace (detect (Some file) type_model) = []
    /\ outcome (detect (Some file) type_model)
       = Ok (mkJSONResponse
               (PyDict [("error",
                         PyStr "Invalid file type. Allowed types: jpg, jpeg, png.")])
               400).
Proof.
  intros file name type_model Hn Hext.
  rewrite (detect_invalid_file file type_model _ (validate_file_unsupported _ _ Hn Hext)).
  split; reflexivity.
Qed.



End Endpoint.

(** ** The pipeline *)

Section Pipeline.
Context {E : Externals}.
Import Detect.

(** C4. [load_model] gives the model of the weights file of the selector
    for ["fast"] and for ["accurate"], whenever that file loads; for any
    other string it raises a [ValueError] whose message lists both
    selectors, and the trace holds the log line only: no weights file was
    opened. *)
Theorem load_model_selectors :
  (forall model : YOLOModel,
      YOLO "models/yolov8n.pt" = Ok model ->
      load_model "fast"
      = ([EvLog "Loading YOLO model: %s"; EvModelInit "models/yolov8n.pt"], Ok model))
  /\ (forall model : YOLOModel,
        YOLO "models/yolov8x.pt" = Ok model ->
        load_model "accurate"
        = ([EvLog "Loading YOLO model: %s"; EvModelInit "models/yolov8x.pt"], Ok model))
  /\ (forall type_model : string,
        type_model <> "fast" ->
        type_model <> "accurate" ->
        load_model type_model
        = ([EvLog "Loading YOLO model: %s"],
           Raise (ValueError
                    ("Invalid model type. Available options: "
                     +:+ PyStr.repr_list ["fast"; "accurate"] +:+ "."))))
  /\ PyStr.repr_list ["fast"; "accurate"] = "['fast', 'accurate']".
Proof.
  split; [|split; [|split]].
  - intros model Hm. now rewrite (load_model_known "fast" _ eq_refl), Hm.
  - intros model Hm. now rewrite (load_model_known "accurate" _ eq_refl), Hm.
  - intros type_model Hfast Haccurate. now apply load_model_unknown.
  - reflexivity.
Qed.

(** C10. A call of [detect_objects] that leaves [type_model] out is the
    call with ["accurate"]: once the image is opened, the trace goes on
    with the load of [models/yolov8x.pt], and the selector check has
    passed. *)
Theorem detect_objects_default_accurate :
  forall image_data : list Byte.byte,
    detect_objects image_data None = detect_objects image_data (Some "accurate")
    /\ load_model (default "accurate" None)
       = ([EvLog "Loading YOLO model: %s"; EvModelInit "models/yolov8x.pt"],
          YOLO "models/yolov8x.pt")
    /\ (forall image : PILImage,
          Image_open image_data = Ok image ->
          exists rest r,
            detect_objects image_data None
            = (EvImageOpen image_data :: EvLog "Loading YOLO model: %s"
               :: EvModelInit "models/yolov8x.pt" :: rest, r)).
Proof.
  intros image_data. split; [reflexivity|]. split.
  - now apply load_model_known.
  - intros image Hopen. unfold detect_objects. cbn [default].
    rewrite Hopen, call_ok, bind_ok. cbn [fst snd].
    rewrite (load_model_known "accurate" _ eq_refl).
    destruct (YOLO "models/yolov8x.pt") as [model|e].
    + rewrite bind_ok. cbn [app]. eauto.
    + rewrite bind_raise. cbn [app]. eauto.
Qed.

(** Reversing the last axis turns a pixel around. *)
Lemma pixel_reverse_last_axis (rows : list (list (list Z))) (i j : nat) :
  Spec.pixel (Array3 (map (map (@rev Z)) rows)) i j
  = @rev Z <$> Spec.pixel (Array3 rows) i j.
Proof.
  unfold Spec.pixel. rewrite !list_lookup_fmap.
  destruct (rows !! i) as [row|]; [|reflexivity]. cbn.
  rewrite list_lookup_fmap. reflexivity.
Qed.

(** C5. For an image that decodes to an array of three axes, the array the
    model is called on is the decoded one with its last axis reversed: the
    pixel that was [r, g, b] is [b, g, r] at the same place. *)
Theorem perform_detection_reverses_channels :
  forall (model : YOLOModel) (image : PILImage) (rows : list (list (list Z))),
    np_array image = Ok (Array3 rows) ->
    exists image_np,
      perform_detection model image
      = ([EvNpArray; EvInference image_np], YOLO_call model image_np)
      /\ image_np = Array3 (map (map (@rev Z)) rows)
      /\ forall (i j : nat) (r g b : Z),
          Spec.pixel (Array3 rows) i j = Some [r; g; b] ->
          Spec.pixel image_np i j = Some [b; g; r].
Proof.
  intros model image rows Hnp.
  exists (Array3 (map (map (@rev Z)) rows)). split; [|split; [reflexivity|]].
  - unfold perform_detection. rewrite Hnp, call_ok, bind_ok. cbn [fst snd].
    unfold reverse_last_axis, lift. rewrite bind_ok. cbn [fst snd app].
    unfold call, emit, lift. now destruct (YOLO_call _ _).
  - intros i j r g b Hpx. rewrite pixel_reverse_last_axis, Hpx. reflexivity.
Qed.

End Pipeline.

(** ** The normalizer *)

Section Normalizer.
Import Detect.

Lemma getitem_ok {A} (l : list A) (i : nat) (x : A) :
  getitem l i = Ok x <-> l !! i = Some x.
Proof.
  unfold getitem. destruct (l !! i); split; intros H; try discriminate; congruence.
Qed.

Lemma getkey_ok (d : gmap Z string) (k : Z) (x : string) :
  getkey d k = Ok x <-> d !! k = Some x.
Proof.
  unfold getkey. destruct (d !! k); split; intros H; try discriminate; congruence.
Qed.

Ltac ok_cases H :=
  repeat match type of H with
         | match ?x with Ok _ => _ | Raise _ => _ end = Ok _ =>
             let Hx := fresh "Hx" in destruct x eqn:Hx; [|discriminate H]
         end.

(** The loop emits one record per row, in order, and each is its row. *)
Lemma extract_rows_rows (result : Results) (b : Boxes) (rows : list (list float)) :
  forall (i : nat) (records : list pyval),
    extract_rows result b i rows = Ok records ->
    length records = length rows
    /\ forall (k : nat) (record : pyval),
        records !! k = Some record ->
        exists box_data,
          rows !! k = Some box_data
          /\ Spec.row_record result b (i + k) box_data record.
Proof.
  induction rows as [|box_data rest IH]; intros i records Hrun.
  - injection Hrun as <-. split; [reflexivity|]. intros k record Hk. discriminate Hk.
  - cbn [extract_rows] in Hrun. ok_cases Hrun. injection Hrun as <-.
    match goal with H : extract_rows _ _ _ _ = Ok ?tl |- _ =>
      destruct (IH _ _ H) as [Hlen Hrec] end.
    split; [cbn; now rewrite Hlen|].
    intros [|k] record Hk.
    + injection Hk as <-. exists box_data. split; [reflexivity|].
      rewrite Nat.add_0_r.
      repeat match goal with
             | H : getitem _ _ = Ok _ |- _ => apply getitem_ok in H
             | H : getkey _ _ = Ok _ |- _ => apply getkey_ok in H
             end.
      unfold Spec.row_record. do 8 eexists.
      repeat (split; [eassumption|]). split; reflexivity.
    + destruct (Hrec k record Hk) as [bd [Hrow Hrr]].
      exists bd. split; [exact Hrow|].
      now replace (i + S k)%nat with (S i + k)%nat by lia.
Qed.

(** C6, as the code has it.  The normalizer emits one record per row of
    [boxes.data], in the order of the rows, and record [i] carries the raw
    values unchanged: the label of [int(cls[i])], [conf[i]] and the four
    first items of the row.  Nothing is clamped or checked, so a record is
    within the bounds of the specification exactly when the raw values
    are. *)
Theorem extract_detection_results_passes_raw_values :
  forall (results : list Results) (records : list pyval),
    outcome (extract_detection_results results) = Ok records ->
    exists (result : Results) (b : Boxes),
      results !! 0%nat = Some result
      /\ boxes result = Some b
      /\ length records = length (data b)
      /\ forall (i : nat) (record : pyval),
          records !! i = Some record ->
          exists box_data,
            data b !! i = Some box_data
            /\ Spec.row_record result b i box_data record.
Proof.
  intros results records Hrun. unfold extract_detection_results in Hrun.
  unfold logger_info, emit in Hrun. rewrite bind_ok in Hrun. cbn [fst snd] in Hrun.
  destruct (getitem results 0) as [result|e] eqn:Hres; [|discriminate Hrun].
  apply getitem_ok in Hres. unfold lift in Hrun. rewrite bind_ok in Hrun.
  cbn [fst snd] in Hrun.
  destruct (boxes result) as [b|] eqn:Hb; [|discriminate Hrun].
  exists result, b. split; [exact Hres|]. split; [exact Hb|].
  unfold outcome in Hrun. cbn [snd] in Hrun.
  destruct (0 <? length (data b))%nat eqn:Hlen.
  - destruct (extract_rows result b 0 (data b)) as [recs|e] eqn:Hrows;
      [|discriminate Hrun].
    cbn in Hrun. injection Hrun as <-.
    destruct (extract_rows_rows _ _ _ _ _ Hrows) as [Hl Hrec]. split; [exact Hl|].
    intros i record Hi. exact (Hrec i record Hi).
  - cbn in Hrun. injection Hrun as <-.
    apply Nat.ltb_ge in Hlen. split; [cbn; lia|].
    intros i record Hi. discriminate Hi.
Qed.

End Normalizer.

(** ** The body of a success response *)

Section ResponseBody.
Context {E : Externals}.
Import App.

Lemma bind_outcome_ok {A B} (m : M A) (k : A -> M B) (b : B) :
  outcome (bind m k) = Ok b ->
  exists a, outcome m = Ok a /\ outcome (k a) = Ok b.
Proof.
  destruct m as [t [a|e]]; [|discriminate].
  rewrite bind_ok. unfold outcome. cbn [snd]. eauto.
Qed.

(** A response that was built holds the content it was built from. *)
Lemma create_response_ok (body : pyval) (status : Z) (resp : JSONResponse) :
  create_response body status = Ok resp ->
  json_compliant body = true /\ resp = mkJSONResponse body status.
Proof.
  unfold create_response, JSONResponse_init.
  destruct (json_compliant body); [|discriminate]. now intros [= <-].
Qed.

(** Whatever [detect_objects] returns is the dict of three keys. *)
Lemma detect_objects_returns_dict (image_data : list Byte.byte)
    (type_model : option string) (v : pyval) :
  outcome (Detect.detect_objects image_data type_model) = Ok v ->
  exists (detected_objects : list pyval) (timings : pyval) (path : string),
    v = PyDict [("detected_objects", PyList detected_objects);
                ("speed", timings);
                ("inferred_image_path", PyStr path)].
Proof.
  intros Hrun. unfold Detect.detect_objects in Hrun.
  do 6 (apply bind_outcome_ok in Hrun as [? [_ Hrun]]).
  injection Hrun as <-. eauto.
Qed.

(** So the handler always takes the first branch of [if results]: no
    request is answered [{"message": "No objects detected"}]. *)
Lemma detect_message_branch_dead (file : option UploadFile) (type_model : string)
    (resp : JSONResponse) :
  outcome (detect file type_model) = Ok resp ->
  content resp <> PyDict [("message", PyStr "No objects detected")].
Proof.
  intros Hrun. destruct file as [file|];
    [|apply create_response_ok in Hrun as [_ ->]; discriminate].
  unfold detect in Hrun. destruct (validate_file file) as [[|] message]; cbn [negb] in Hrun.
  - apply bind_outcome_ok in Hrun as [image_data [_ Hrun]].
    apply bind_outcome_ok in Hrun as [results [Hres Hrun]].
    apply detect_objects_returns_dict in Hres as [objs [timings [path ->]]].
    cbn [truthy] in Hrun. apply create_response_ok in Hrun as [_ ->]. discriminate.
  - apply create_response_ok in Hrun as [_ ->]. discriminate.
Qed.

End ResponseBody.

(** ** The pipeline on the test double *)

Section OnTheDouble.
Import App Double.

(** C3, on the code.  A JPEG upload on which the model sees nothing is
    answered 200 with the dict of [detect_objects]: [detected_objects] is
    the empty list, but the body is not [{"message": "No objects
    detected"}]. *)
Theorem detect_zero_detections_response :
  outcome (detect (E := world two_pixels [no_detection])
             (Some (mkUploadFile (Some "street.jpg") jpeg_bytes)) "fast")
  = Ok (mkJSONResponse
          (PyDict [("detected_objects", PyList []);
                   ("speed", timings);
                   ("inferred_image_path",
                    PyStr "static/inferences/inferred_image.jpg")])
          200).
Proof. vm_compute. reflexivity. Qed.

(** C7, on the code.  A JPEG upload on which the model sees one person is
    answered 200 with the dict of [detect_objects], whose
    [detected_objects] holds the record; the body is not an array. *)
Theorem detect_one_detection_response :
  outcome (detect (E := world two_pixels [one_person])
             (Some (mkUploadFile (Some "street.jpg") jpeg_bytes)) "accurate")
  = Ok (mkJSONResponse
          (PyDict [("detected_objects",
                    PyList [Detect.detection_record "person" 0.5 34 63 200 360]);
                   ("speed", timings);
                   ("inferred_image_path",
                    PyStr "static/inferences/inferred_image.jpg")])
          200)
  /\ Spec.is_array
       (PyDict [("detected_objects",
                 PyList [Detect.detection_record "person" 0.5 34 63 200 360]);
                ("speed", timings);
                ("inferred_image_path",
                 PyStr "static/inferences/inferred_image.jpg")])
     = false.
Proof. split; vm_compute; reflexivity. Qed.



(** A raw output with a confidence of 1.5 and a box from (50, 60) to
    (10, 20) on a 100 x 100 image: the record is emitted with these very
    values, outside every bound. *)
Lemma extract_detection_results_out_of_bounds :
  outcome (Detect.extract_detection_results [out_of_range])
  = Ok [Detect.detection_record "person" 1.5 50 60 10 20]
  /\ Spec.record_in_bounds (orig_shape out_of_range)
       (Detect.detection_record "person" 1.5 50 60 10 20) = false
  /\ PrimFloat.leb 1.5 1 = false
  /\ PrimFloat.leb 50 10 = false
  /\ PrimFloat.leb 60 20 = false.
Proof. repeat split; vm_compute; reflexivity. Qed.

End OnTheDouble.

(** ** The theorems at work on the test double *)

Section Instances.
Import App Double.

(** The bounds hold of the record of an ordinary detection. *)
Example one_person_in_bounds :
  outcome (Detect.extract_detection_results [one_person])
  = Ok [Detect.detection_record "person" 0.5 34 63 200 360]
  /\ Spec.record_in_bounds (orig_shape one_person)
       (Detect.detection_record "person" 0.5 34 63 200 360) = true.
Proof. split; vm_compute; reflexivity. Qed.

Example int_of_float_truncates :
  int_of_float 2.75%float = Ok 2 /\ int_of_float (-3.5)%float = Ok (-3)
  /\ int_of_float PrimFloat.nan
     = Raise (ValueError "cannot convert float NaN to integer").
Proof. repeat split; reflexivity. Qed.

Lemma detect_unsupported_extension_no_work_gif :
  trace (detect (E := world two_pixels [one_person])
           (Some (mkUploadFile (Some "anim.GIF") jpeg_bytes)) "fast") = []
  /\ outcome (detect (E := world two_pixels [one_person])
                (Some (mkUploadFile (Some "anim.GIF") jpeg_bytes)) "fast")
     = Ok (mkJSONResponse
             (PyDict [("error",
                       PyStr "Invalid file type. Allowed types: jpg, jpeg, png.")])
             400).
Proof.
  apply (detect_unsupported_extension_no_work (E := world two_pixels [one_person])
           (mkUploadFile (Some "anim.GIF") jpeg_bytes) "anim.GIF" "fast");
    reflexivity.
Defined.



Lemma load_model_selectors_on_double :
  Detect.load_model (E := world two_pixels [one_person]) "fast"
  = ([EvLog "Loading YOLO model: %s"; EvModelInit "models/yolov8n.pt"],
     Ok "models/yolov8n.pt")
  /\ Detect.load_model (E := world two_pixels [one_person]) "accurate"
     = ([EvLog "Loading YOLO model: %s"; EvModelInit "models/yolov8x.pt"],
        Ok "models/yolov8x.pt")
  /\ Detect.load_model (E := world two_pixels [one_person]) "Fast"
     = ([EvLog "Loading YOLO model: %s"],
        Raise (ValueError
                 ("Invalid model type. Available options: "
                  +:+ PyStr.repr_list ["fast"; "accurate"] +:+ "."))).
Proof.
  destruct (load_model_selectors (E := world two_pixels [one_person]))
    as [Hfast [Haccurate [Hother _]]].
  split; [|split].
  - apply Hfast. reflexivity.
  - apply Haccurate. reflexivity.
  - apply Hother; discriminate.
Defined.

Lemma detect_objects_default_accurate_on_double :
  exists rest r,
    Detect.detect_objects (E := world two_pixels [one_person]) jpeg_bytes None
    = (EvImageOpen jpeg_bytes :: EvLog "Loading YOLO model: %s"
       :: EvModelInit "models/yolov8x.pt" :: rest, r).
Proof.
  apply (proj2 (proj2
           (detect_objects_default_accurate (E := world two_pixels [one_person])
              jpeg_bytes)) two_pixels).
  reflexivity.
Defined.

Lemma perform_detection_reverses_channels_on_double :
  exists image_np,
    Detect.perform_detection (E := world two_pixels [one_person])
      "models/yolov8n.pt" two_pixels
    = ([EvNpArray; EvInference image_np], Ok [one_person])
    /\ image_np = Array3 [[[0; 0; 255]; [30; 20; 10]]]
    /\ forall (i j : nat) (r g b : Z),
        Spec.pixel two_pixels i j = Some [r; g; b] ->
        Spec.pixel image_np i j = Some [b; g; r].
Proof.
  apply (perform_detection_reverses_channels (E := world two_pixels [one_person])
           "models/yolov8n.pt" two_pixels [[[255; 0; 0]; [10; 20; 30]]]).
  reflexivity.
Defined.

Lemma extract_detection_results_passes_raw_values_one_person :
  exists (result : Results) (b : Boxes),
    [one_person] !! 0%nat = Some result
    /\ boxes result = Some b
    /\ length [Detect.detection_record "person" 0.5 34 63 200 360] = length (data b)
    /\ forall (i : nat) (record : pyval),
        [Detect.detection_record "person" 0.5 34 63 200 360] !! i = Some record ->
        exists box_data,
          data b !! i = Some box_data
          /\ Spec.row_record result b i box_data record.
Proof.
  apply (extract_detection_results_passes_raw_values [one_person]).
  vm_compute. reflexivity.
Defined.

End Instances.

(** * Beyond the claims: the run of a request *)

Section Stages.
Context {E : Externals}.
Import Detect App.

(** [detect_objects], stage by stage: where it stops, what it has called
    by then, and what it raises or returns. *)
Lemma detect_objects_stages (image_data : list Byte.byte) (type_model : option string) :
  detect_objects image_data type_model
  = match Image_open image_data with
    | Raise e => ([EvImageOpen image_data], Raise e)
    | Ok image =>
    let t1 := [EvImageOpen image_data; EvLog "Loading YOLO model: %s"] in
    match lookup_path MODEL_PATHS (default "accurate" type_model) with
    | None =>
        (t1, Raise (ValueError
                      "Invalid model type. Available options: ['fast', 'accurate']."))
    | Some model_path =>
    let t2 := (t1 ++ [EvModelInit model_path])%list in
    match YOLO model_path with
    | Raise e => (t2, Raise e)
    | Ok model =>
    let t3 := (t2 ++ [EvNpArray])%list in
    match np_array image with
    | Raise e => (t3, Raise e)
    | Ok (Array2 _) => (t3, Raise IndexError)
    | Ok (Array3 rows) =>
    let image_np := Array3 (map (map (@rev Z)) rows) in
    let t4 := (t3 ++ [EvInference image_np])%list in
    match YOLO_call model image_np with
    | Raise e => (t4, Raise e)
    | Ok results =>
    let t5 := (t4 ++ [EvLog "Extracting YOLO Detection Results"])%list in
    match results with
    | [] => (t5, Raise IndexError)
    | result :: _ =>
    match boxes result with
    | None => ((t5 ++ [EvLog "YOLO Detection Results: %s"])%list,
               Raise (AttributeError "boxes"))
    | Some b =>
    match (if (0 <? length (data b))%nat
           then extract_rows result b 0 (data b) else Ok []) with
    | Raise e => (t5, Raise e)
    | Ok detected_objects =>
    match Results_save result Run.saved_path with
    | Raise e => (Run.full_trace image_data model_path image_np, Raise e)
    | Ok _ =>
        (Run.full_trace image_data model_path image_np,
         Ok (Run.inference_result detected_objects (speed result)))
    end end end end end end end end end.
Proof.
  unfold detect_objects, load_model, perform_detection, extract_detection_results,
    render_and_save_image, call, logger_info, emit, lift, ret, raise.
  destruct (Image_open image_data) as [image|e]; [|reflexivity].
  cbn [bind app].
  destruct (lookup_path MODEL_PATHS (default "accurate" type_model)) as [model_path|];
    [|reflexivity].
  destruct (YOLO model_path) as [model|e]; [|reflexivity].
  cbn [bind app].
  destruct (np_array image) as [[rows|rows]|e]; [reflexivity| |reflexivity].
  cbn [bind app reverse_last_axis].
  destruct (YOLO_call model _) as [results|e]; [|reflexivity].
  destruct results as [|result rest]; [reflexivity|].
  cbn [bind app getitem lookup list_lookup].
  destruct (boxes result) as [b|]; [|reflexivity].
  destruct (0 <? length (data b))%nat.
  - destruct (extract_rows result b 0 (data b)) as [recs|e]; [|reflexivity].
    cbn [bind app]. destruct (Results_save result _); reflexivity.
  - cbn [bind app]. destruct (Results_save result _); reflexivity.
Qed.

(** The guard [len(result.boxes.data)] changes nothing: the loop over no
    row gives the empty list as well. *)
Lemma extract_rows_guard (result : Results) (b : Boxes) :
  (if (0 <? length (data b))%nat then extract_rows result b 0 (data b) else Ok [])
  = extract_rows result b 0 (data b).
Proof. now destruct (data b). Qed.

(** What the normalizer gives for a batch that is not empty. *)
Lemma extract_detection_results_outcome (result : Results) (rest : list Results) :
  outcome (extract_detection_results (result :: rest))
  = match boxes result with
    | None => Raise (AttributeError "boxes")
    | Some b => extract_rows result b 0 (data b)
    end.
Proof.
  unfold extract_detection_results, logger_info, emit, lift, ret, raise.
  cbn [bind app getitem lookup list_lookup].
  destruct (boxes result) as [b|]; [|reflexivity].
  destruct (data b) as [|box_data rows]; [reflexivity|].
  change (0 <? length (box_data :: rows))%nat with true. cbv iota.
  now destruct (extract_rows result b 0 (box_data :: rows)).
Qed.

(** A validated upload: the handler reads it, runs [detect_objects] on its
    bytes, and answers 200 with whatever dict comes back. *)
Lemma detect_valid_file_run (file : UploadFile) (type_model : string) :
  fst (validate_file file) = true ->
  detect (Some file) type_model
  = (EvFileRead :: trace (detect_objects (file_content file) (Some type_model)),
     match outcome (detect_objects (file_content file) (Some type_model)) with
     | Ok results =>
         if truthy results then create_response results 200
         else create_response
                (PyDict [("message", PyStr "No objects detected")]) 200
     | Raise e => Raise e
     end).
Proof.
  intros Hv. rewrite (detect_valid_file _ _ Hv).
  unfold file_read. rewrite call_ok, bind_ok. cbn [fst snd app].
  destruct (detect_objects (file_content file) (Some type_model)) as [t [v|e]];
    [|reflexivity].
  rewrite bind_ok. cbn [trace outcome fst snd].
  destruct (truthy v); unfold lift; cbn [fst snd]; now rewrite app_nil_r.
Qed.

(** When every stage returns, the handler goes on to build the response
    from the dict of [detect_objects]. *)
Lemma detect_after_stages (file : UploadFile) (type_model model_path : string)
    (image : PILImage) (model : YOLOModel) (rows : list (list (list Z)))
    (result : Results) (rest : list Results) (detected_objects : list pyval) :
  fst (validate_file file) = true ->
  Image_open (file_content file) = Ok image ->
  lookup_path MODEL_PATHS type_model = Some model_path ->
  YOLO model_path = Ok model ->
  np_array image = Ok (Array3 rows) ->
  YOLO_call model (Array3 (map (map (@rev Z)) rows)) = Ok (result :: rest) ->
  outcome (extract_detection_results (result :: rest)) = Ok detected_objects ->
  Results_save result Run.saved_path = Ok tt ->
  detect (Some file) type_model
  = (EvFileRead
     :: Run.full_trace (file_content file) model_path
          (Array3 (map (map (@rev Z)) rows)),
     create_response (Run.inference_result detected_objects (speed result)) 200).
Proof.
  intros Hv Hopen Hpath Hyolo Hnp Hcall Hext Hsave.
  rewrite (detect_valid_file_run _ _ Hv), detect_objects_stages.
  change (default "accurate" (Some type_model)) with type_model. cbv zeta.
  rewrite Hopen, Hpath, Hyolo, Hnp, Hcall.
  rewrite extract_detection_results_outcome in Hext.
  destruct (boxes result) as [b|]; [|discriminate Hext].
  rewrite extract_rows_guard, Hext, Hsave. reflexivity.
Qed.

(** X2. When every stage returns and no float of the body is a NaN or an
    infinity, the request is answered 200: the body holds the records of
    the first result, its timings and the fixed path; the weights file of
    the selector was loaded for this request, and the model saw the
    decoded array with its channels reversed. *)
Theorem detect_success_path :
  forall (file : UploadFile) (type_model model_path : string) (image : PILImage)
         (model : YOLOModel) (rows : list (list (list Z)))
         (result : Results) (rest : list Results) (detected_objects : list pyval),
    fst (validate_file file) = true ->
    Image_open (file_content file) = Ok image ->
    lookup_path MODEL_PATHS type_model = Some model_path ->
    YOLO model_path = Ok model ->
    np_array image = Ok (Array3 rows) ->
    YOLO_call model (Array3 (map (map (@rev Z)) rows)) = Ok (result :: rest) ->
    outcome (extract_detection_results (result :: rest)) = Ok detected_objects ->
    Results_save result Run.saved_path = Ok tt ->
    json_compliant (Run.inference_result detected_objects (speed result)) = true ->
    detect (Some file) type_model
    = (EvFileRead
       :: Run.full_trace (file_content file) model_path
            (Array3 (map (map (@rev Z)) rows)),
       Ok (mkJSONResponse
             (Run.inference_result detected_objects (speed result)) 200)).
Proof.
  intros file type_model model_path image model rows result rest detected_objects
    Hv Hopen Hpath Hyolo Hnp Hcall Hext Hsave Hjson.
  rewrite (detect_after_stages _ _ _ _ _ _ _ _ _
             Hv Hopen Hpath Hyolo Hnp Hcall Hext Hsave).
  unfold create_response, JSONResponse_init. now rewrite Hjson.
Qed.

(** X14. A float that is a NaN or an infinity, among the records or the
    timings, is fatal to the request: when every stage has returned, the
    rendered image included, building the response raises [ValueError],
    which leaves the handler. *)
Theorem detect_out_of_range_float_raises :
  forall (file : UploadFile) (type_model model_path : string) (image : PILImage)
         (model : YOLOModel) (rows : list (list (list Z)))
         (result : Results) (rest : list Results) (detected_objects : list pyval),
    fst (validate_file file) = true ->
    Image_open (file_content file) = Ok image ->
    lookup_path MODEL_PATHS type_model = Some model_path ->
    YOLO model_path = Ok model ->
    np_array image = Ok (Array3 rows) ->
    YOLO_call model (Array3 (map (map (@rev Z)) rows)) = Ok (result :: rest) ->
    outcome (extract_detection_results (result :: rest)) = Ok detected_objects ->
    Results_save result Run.saved_path = Ok tt ->
    json_compliant (Run.inference_result detected_objects (speed result)) = false ->
    exists message : string,
      detect (Some file) type_model
      = (EvFileRead
         :: Run.full_trace (file_content file) model_path
              (Array3 (map (map (@rev Z)) rows)),
         Raise (ValueError message)).
Proof.
  intros file type_model model_path image model rows result rest detected_objects
    Hv Hopen Hpath Hyolo Hnp Hcall Hext Hsave Hjson.
  rewrite (detect_after_stages _ _ _ _ _ _ _ _ _
             Hv Hopen Hpath Hyolo Hnp Hcall Hext Hsave).
  unfold create_response, JSONResponse_init. rewrite Hjson. eauto.
Qed.

(** X3. The stages run in one order and nothing runs after a failure: the
    trace of [detect_objects] is always a prefix of the full trace for one
    of the two weights files, and it is the full trace whenever a value is
    returned. *)
Theorem detect_objects_trace_prefix :
  forall (image_data : list Byte.byte) (type_model : option string),
  exists (model_path : string) (image_np : ndarray),
    (model_path = "models/yolov8n.pt" \/ model_path = "models/yolov8x.pt")
    /\ trace (detect_objects image_data type_model)
         `prefix_of` Run.full_trace image_data model_path image_np
    /\ forall v : pyval,
        outcome (detect_objects image_data type_model) = Ok v ->
        trace (detect_objects image_data type_model)
        = Run.full_trace image_data model_path image_np.
Proof.
  intros image_data type_model. rewrite detect_objects_stages.
  assert (forall (t k : list event) (e : exn) (full : list event),
             full = (t ++ k)%list ->
             trace (A := pyval) (t, Raise e) `prefix_of` full
             /\ forall v, outcome (A := pyval) (t, Raise e) = Ok v
                          -> trace (A := pyval) (t, Raise e) = full) as Hstop.
  { intros t k e full ->. split; [now exists k | discriminate]. }
  destruct (Image_open image_data) as [image|e].
  2:{ exists "models/yolov8n.pt", (Array2 []). split; [now left|].
      eapply Hstop. reflexivity. }
  rewrite lookup_path_MODEL_PATHS.
  destruct (String.eqb (default "accurate" type_model) "fast");
    [|destruct (String.eqb (default "accurate" type_model) "accurate")].
  3:{ exists "models/yolov8n.pt", (Array2 []). split; [now left|].
      eapply Hstop. reflexivity. }
  all: match goal with
       | |- context [YOLO ?model_path] =>
           assert (model_path = "models/yolov8n.pt"
                   \/ model_path = "models/yolov8x.pt") as Hmp by (auto);
           destruct (YOLO model_path) as [model|e];
           [|exists model_path, (Array2 []); split; [exact Hmp|];
             eapply Hstop; reflexivity];
           destruct (np_array image) as [[rows|rows]|e];
           try (exists model_path, (Array2 []); split; [exact Hmp|];
                eapply Hstop; reflexivity);
           exists model_path, (Array3 (map (map (@rev Z)) rows));
           split; [exact Hmp|]
       end.
  all: cbv zeta.
  all: destruct (YOLO_call model _) as [results|e]; [|eapply Hstop; reflexivity].
  all: destruct results as [|result rest]; [eapply Hstop; reflexivity|].
  all: destruct (boxes result) as [b|]; [|eapply Hstop; reflexivity].
  all: destruct (if (0 <? length (data b))%nat
                 then extract_rows result b 0 (data b) else Ok []) as [recs|e];
    [|eapply Hstop; reflexivity].
  all: destruct (Results_save result Run.saved_path) as [u|e];
    [split; [reflexivity|]; intros v _; reflexivity
    |apply (Hstop _ []); now rewrite app_nil_r].
Qed.

(** [detect_objects] returns nothing, or the dict of three keys after the
    full trace. *)
Lemma detect_objects_returns_after_full_trace (image_data : list Byte.byte)
    (type_model : option string) :
  (forall v, outcome (detect_objects image_data type_model) <> Ok v)
  \/ exists (detected_objects : list pyval) (timings : pyval)
            (model_path : string) (image_np : ndarray),
      outcome (detect_objects image_data type_model)
      = Ok (Run.inference_result detected_objects timings)
      /\ trace (detect_objects image_data type_model)
         = Run.full_trace image_data model_path image_np.
Proof.
  rewrite detect_objects_stages. cbv zeta.
  repeat match goal with
         | |- context [match ?x with _ => _ end] =>
             destruct x; try (left; intros v; discriminate)
         end.
  all: right; do 4 eexists; split; reflexivity.
Qed.

End Stages.
(** ** How a request fails *)

Section Failures.
Context {E : Externals}.
Import Detect App.

(** X4. A single-band image is not answered: once the weights are loaded,
    [image_np[:, :, ::-1]] raises [IndexError] on the array of two axes,
    and the model is never called. *)
Theorem detect_single_band_image_raises :
  forall (file : UploadFile) (type_model model_path : string) (image : PILImage)
         (model : YOLOModel) (rows : list (list Z)),
    fst (validate_file file) = true ->
    Image_open (file_content file) = Ok image ->
    lookup_path MODEL_PATHS type_model = Some model_path ->
    YOLO model_path = Ok model ->
    np_array image = Ok (Array2 rows) ->
    detect (Some file) type_model
    = ([EvFileRead; EvImageOpen (file_content file);
        EvLog "Loading YOLO model: %s"; EvModelInit model_path; EvNpArray],
       Raise IndexError).
Proof.
  intros file type_model model_path image model rows Hv Hopen Hpath Hyolo Hnp.
  rewrite (detect_valid_file_run _ _ Hv), detect_objects_stages.
  change (default "accurate" (Some type_model)) with type_model. cbv zeta.
  now rewrite Hopen, Hpath, Hyolo, Hnp.
Qed.

(** X5. A weights file that does not load is not answered either: the
    exception of [YOLO(model_path)] leaves the handler, and neither the
    conversion of the image nor inference nor the save has run. *)
Theorem detect_weights_failure_raises :
  forall (file : UploadFile) (type_model model_path : string) (image : PILImage)
         (e : exn),
    fst (validate_file file) = true ->
    Image_open (file_content file) = Ok image ->
    lookup_path MODEL_PATHS type_model = Some model_path ->
    YOLO model_path = Raise e ->
    detect (Some file) type_model
    = ([EvFileRead; EvImageOpen (file_content file);
        EvLog "Loading YOLO model: %s"; EvModelInit model_path],
       Raise e).
Proof.
  intros file type_model model_path image e Hv Hopen Hpath Hyolo.
  rewrite (detect_valid_file_run _ _ Hv), detect_objects_stages.
  change (default "accurate" (Some type_model)) with type_model. cbv zeta.
  now rewrite Hopen, Hpath, Hyolo.
Qed.

(** X6. A failed save is fatal to the request: when every stage up to the
    normalizer has returned and [result.save] raises, the handler raises
    that exception and the records are not sent. *)
Theorem detect_save_failure_raises :
  forall (file : UploadFile) (type_model model_path : string) (image : PILImage)
         (model : YOLOModel) (rows : list (list (list Z)))
         (result : Results) (rest : list Results) (detected_objects : list pyval)
         (e : exn),
    fst (validate_file file) = true ->
    Image_open (file_content file) = Ok image ->
    lookup_path MODEL_PATHS type_model = Some model_path ->
    YOLO model_path = Ok model ->
    np_array image = Ok (Array3 rows) ->
    YOLO_call model (Array3 (map (map (@rev Z)) rows)) = Ok (result :: rest) ->
    outcome (extract_detection_results (result :: rest)) = Ok detected_objects ->
    Results_save result Run.saved_path = Raise e ->
    detect (Some file) type_model
    = (EvFileRead
       :: Run.full_trace (file_content file) model_path
            (Array3 (map (map (@rev Z)) rows)),
       Raise e).
Proof.
  intros file type_model model_path image model rows result rest detected_objects e
    Hv Hopen Hpath Hyolo Hnp Hcall Hext Hsave.
  rewrite (detect_valid_file_run _ _ Hv), detect_objects_stages.
  change (default "accurate" (Some type_model)) with type_model. cbv zeta.
  rewrite Hopen, Hpath, Hyolo, Hnp, Hcall.
  rewrite extract_detection_results_outcome in Hext.
  destruct (boxes result) as [b|]; [|discriminate Hext].
  rewrite extract_rows_guard, Hext, Hsave. reflexivity.
Qed.

(** X1. What the handler answers, when it answers.  Either the status is
    400, the body is [{"error": message}] with one of three messages, and
    nothing outside was called; or the status is 200, the body is the dict
    of three keys with the fixed path, and the upload went through every
    stage, the save at that path included. *)
Theorem detect_response_shapes :
  forall (file : option UploadFile) (type_model : string) (resp : JSONResponse),
    outcome (detect file type_model) = Ok resp ->
    (status_code resp = 400
     /\ trace (detect file type_model) = []
     /\ exists message : string,
         content resp = PyDict [("error", PyStr message)]
         /\ (message = "No image file provided"
             \/ message = "No file name provided."
             \/ message = "Invalid file type. Allowed types: jpg, jpeg, png."))
    \/ (status_code resp = 200
        /\ exists (f : UploadFile) (detected_objects : list pyval) (timings : pyval)
                  (model_path : string) (image_np : ndarray),
            file = Some f
            /\ content resp = Run.inference_result detected_objects timings
            /\ trace (detect file type_model)
               = EvFileRead :: Run.full_trace (file_content f) model_path image_np).
Proof.
  intros file type_model resp Hrun.
  destruct file as [file|].
  2:{ injection Hrun as <-. left. cbn. repeat split. eauto. }
  destruct (validate_file file) as [valid message] eqn:Hv. destruct valid.
  - right. split.
    + revert Hrun. rewrite detect_valid_file_run by now rewrite Hv.
      cbn [outcome snd].
      destruct (outcome (detect_objects (file_content file) (Some type_model)))
        as [v|e]; [|discriminate].
      intros Hrun.
      destruct (truthy v); apply create_response_ok in Hrun as [_ ->]; reflexivity.
    + destruct (detect_objects_returns_after_full_trace (file_content file) (Some type_model))
        as [Hnone | [objs [timings [model_path [image_np [Hout Htr]]]]]].
      * revert Hrun. rewrite detect_valid_file_run by now rewrite Hv.
        cbn [outcome snd]. destruct (outcome (detect_objects _ _)) as [v|e];
          [exfalso; eapply Hnone; reflexivity | discriminate].
      * exists file, objs, timings, model_path, image_np. split; [reflexivity|].
        revert Hrun. rewrite detect_valid_file_run by now rewrite Hv.
        cbn [outcome snd trace fst]. rewrite Hout, Htr. cbn [truthy Run.inference_result].
        intros Hrun. apply create_response_ok in Hrun as [_ ->]. split; reflexivity.
  - left. rewrite (detect_invalid_file _ _ _ Hv) in *.
    injection Hrun as <-. cbn. repeat split.
    exists message. split; [reflexivity|].
    unfold validate_file in Hv. destruct (filename file) as [name|].
    + destruct (negb _); [|discriminate]. injection Hv as <-. auto.
    + injection Hv as <-. auto.
Qed.

End Failures.

(** ** The normalizer, the renderer and the channel order *)

Section NormalizerRuns.
Import Detect.

Lemma int_of_float_error (x : float) (e : exn) :
  int_of_float x = Raise e -> Run.normalizer_error e.
Proof.
  unfold int_of_float, Run.normalizer_error.
  destruct (Prim2SF x); intros [= <-]; auto.
Qed.

Lemma getitem_error {A} (l : list A) (i : nat) (e : exn) :
  getitem l i = Raise e -> e = IndexError.
Proof. unfold getitem. destruct (l !! i); now intros [= <-]. Qed.

Lemma getkey_error (d : gmap Z string) (k : Z) (e : exn) :
  getkey d k = Raise e -> e = KeyError.
Proof. unfold getkey. destruct (d !! k); now intros [= <-]. Qed.

(** What the loop can raise. *)
Lemma extract_rows_error (result : Results) (b : Boxes) (rows : list (list float)) :
  forall (i : nat) (e : exn),
    extract_rows result b i rows = Raise e -> Run.normalizer_error e.
Proof.
  induction rows as [|box_data rest IH]; intros i e Hrun; [discriminate Hrun|].
  cbn [extract_rows] in Hrun.
  repeat match type of Hrun with
         | match ?x with Ok _ => _ | Raise _ => _ end = Raise _ =>
             let Hx := fresh "Hx" in
             destruct x eqn:Hx;
             [|injection Hrun as <-;
               first [ apply getitem_error in Hx; subst; now left
                     | apply getkey_error in Hx; subst; right; now left
                     | now apply int_of_float_error in Hx
                     | now apply IH in Hx ]]
         end.
  discriminate Hrun.
Qed.

(** The loop returns when every row can be read. *)
Lemma extract_rows_readable (result : Results) (b : Boxes) (rows : list (list float)) :
  forall i : nat,
    (forall (k : nat) (box_data : list float),
        rows !! k = Some box_data -> Run.row_readable result b (i + k) box_data) ->
    exists records, extract_rows result b i rows = Ok records.
Proof.
  induction rows as [|box_data rest IH]; intros i Hrows; [now exists []|].
  destruct (Hrows 0%nat box_data eq_refl)
    as [c [class_id [Hc [Hint [[cf Hcf] [[name Hname] Hlen]]]]]].
  rewrite Nat.add_0_r in Hc, Hcf.
  destruct (IH (S i)) as [tl Htl].
  { intros k bd Hk. replace (S i + k)%nat with (i + S k)%nat by lia.
    now apply Hrows. }
  destruct (lookup_lt_is_Some_2 box_data 0) as [x_min H0]; [lia|].
  destruct (lookup_lt_is_Some_2 box_data 1) as [y_min H1]; [lia|].
  destruct (lookup_lt_is_Some_2 box_data 2) as [x_max H2]; [lia|].
  destruct (lookup_lt_is_Some_2 box_data 3) as [y_max H3]; [lia|].
  cbn [extract_rows]. unfold getitem, getkey.
  rewrite Hc, Hint, Hcf, Hname, H0, H1, H2, H3, Htl. eauto.
Qed.

(** X7. The guard [hasattr(result, "boxes")] does not save a result
    without boxes: the empty list is built, but the last log line reads
    [result.boxes], and the normalizer raises [AttributeError]. *)
Theorem extract_detection_results_missing_boxes :
  forall (result : Results) (rest : list Results),
    boxes result = None ->
    extract_detection_results (result :: rest)
    = ([EvLog "Extracting YOLO Detection Results"; EvLog "YOLO Detection Results: %s"],
       Raise (AttributeError "boxes")).
Proof.
  intros result rest Hb.
  unfold extract_detection_results, logger_info, emit, lift, ret, raise.
  cbn [bind app getitem lookup list_lookup]. now rewrite Hb.
Qed.

(** X8. The normalizer returns exactly when the batch is not empty, its
    first result has boxes, and every row of [boxes.data] can be read:
    [cls] and [conf] reach that far, the class is a number with a label,
    and the row has four items.  With no row at all this asks nothing of
    [cls], [conf] or the labels. *)
Theorem extract_detection_results_returns_iff :
  forall results : list Results,
    (exists records, outcome (extract_detection_results results) = Ok records)
    <-> exists (result : Results) (b : Boxes),
          results !! 0%nat = Some result
          /\ boxes result = Some b
          /\ forall (i : nat) (box_data : list float),
              data b !! i = Some box_data -> Run.row_readable result b i box_data.
Proof.
  intros [|result rest].
  - split; [intros [records Hrun]; discriminate Hrun|].
    intros [result [b [Hres _]]]. discriminate Hres.
  - rewrite extract_detection_results_outcome. split.
    + intros [records Hrun].
      destruct (boxes result) as [b|] eqn:Hb; [|discriminate Hrun].
      exists result, b. split; [reflexivity|]. split; [exact Hb|].
      intros i box_data Hi.
      destruct (extract_rows_rows _ _ _ _ _ Hrun) as [Hlen Hrec].
      destruct (lookup_lt_is_Some_2 records i) as [record Hr].
      { rewrite Hlen. now apply lookup_lt_Some with box_data. }
      destruct (Hrec i record Hr) as [bd [Hbd Hrow]].
      assert (bd = box_data) as -> by congruence.
      destruct Hrow as (c & class_id & name & cf & x0 & y0 & x1 & y1
                        & Hc & Hint & Hcf & Hname & _ & _ & _ & H3 & _).
      exists c, class_id. repeat split; eauto.
      apply lookup_lt_Some in H3. lia.
    + intros [result' [b [Hres [Hb Hrows]]]]. injection Hres as <-. rewrite Hb.
      now apply extract_rows_readable.
Qed.

(** X9. Whatever the normalizer raises by itself is one of five
    exceptions: [IndexError], [KeyError], [OverflowError], the
    [ValueError] of [int] on a NaN, or the [AttributeError] of a result
    without boxes. *)
Theorem extract_detection_results_errors :
  forall (results : list Results) (e : exn),
    outcome (extract_detection_results results) = Raise e ->
    Run.normalizer_error e.
Proof.
  intros [|result rest] e Hrun.
  - injection Hrun as <-. now left.
  - rewrite extract_detection_results_outcome in Hrun.
    destruct (boxes result) as [b|].
    + now apply extract_rows_error in Hrun.
    + injection Hrun as <-. unfold Run.normalizer_error. auto 6.
Qed.

Lemma getitem_take {A} (l : list A) (n i : nat) :
  (i < n)%nat -> getitem (take n l) i = getitem l i.
Proof. intros Hi. unfold getitem. now rewrite lookup_take_lt. Qed.

Lemma extract_rows_read_part (result result' : Results) (b b' : Boxes)
    (rows : list (list float)) :
  cls b' = cls b -> conf b' = conf b -> names result' = names result ->
  forall i : nat,
    extract_rows result' b' i (take 4 <$> rows) = extract_rows result b i rows.
Proof.
  intros Hcls Hconf Hnames. induction rows as [|box_data rest IH]; intros i;
    [reflexivity|].
  cbn [fmap list_fmap extract_rows]. rewrite Hcls, Hconf, Hnames.
  rewrite !getitem_take by lia. fold (fmap (M := list) (take 4) rest).
  now rewrite IH.
Qed.

(** X10. The normalizer reads the first result of the batch only, and of
    it the four first columns of [boxes.data], [cls], [conf] and the
    labels: further columns, further results, the timings and the image
    size do not change what it returns or raises. *)
Theorem extract_detection_results_reads_part :
  forall (result : Results) (rest rest' : list Results) (timings : pyval)
         (shape : nat * nat),
    outcome (extract_detection_results (Run.read_part result timings shape :: rest'))
    = outcome (extract_detection_results (result :: rest)).
Proof.
  intros result rest rest' timings shape.
  rewrite !extract_detection_results_outcome. unfold Run.read_part. cbn [boxes].
  destruct (boxes result) as [b|]; [|reflexivity]. cbn [mbind option_bind data].
  now apply extract_rows_read_part.
Qed.

End NormalizerRuns.

Section RendererAndChannels.
Context {E : Externals}.
Import Detect.

(** X11. The renderer writes to one fixed path, whatever the batch: it
    saves the first result there and returns that path; on an empty batch
    it raises [IndexError] and saves nothing; when the save raises, so
    does the renderer.  No other file name is ever passed to a save. *)
Theorem render_and_save_image_fixed_path :
  forall results : list Results,
    render_and_save_image results
    = match results with
      | [] => ([], Raise IndexError)
      | result :: _ =>
          ([EvSave "static/inferences/inferred_image.jpg"],
           match Results_save result "static/inferences/inferred_image.jpg" with
           | Ok _ => Ok "static/inferences/inferred_image.jpg"
           | Raise e => Raise e
           end)
      end
    /\ forall filename : string,
        In (EvSave filename) (trace (render_and_save_image results)) ->
        filename = "static/inferences/inferred_image.jpg".
Proof.
  intros results.
  assert (render_and_save_image results
          = match results with
            | [] => ([], Raise IndexError)
            | result :: _ =>
                ([EvSave "static/inferences/inferred_image.jpg"],
                 match Results_save result "static/inferences/inferred_image.jpg" with
                 | Ok _ => Ok "static/inferences/inferred_image.jpg"
                 | Raise e => Raise e
                 end)
            end) as Hrun.
  { destruct results as [|result rest]; [reflexivity|].
    unfold render_and_save_image, call, emit, lift, ret.
    cbn [bind app getitem lookup list_lookup os_path_join PyStr.join].
    now destruct (Results_save result _). }
  split; [exact Hrun|]. rewrite Hrun. intros filename.
  destruct results as [|result rest]; cbn [trace fst In]; [tauto|].
  intros [[= <-]|[]]. reflexivity.
Qed.

(** X12. Reversing the last axis of an array of three axes keeps its
    shape and reverses every pixel, whatever the number of channels (with
    an alpha channel, [r, g, b, a] becomes [a, b, g, r]); done twice, it
    gives the array back. *)
Theorem reverse_last_axis_shape :
  forall rows : list (list (list Z)),
  exists rows' : list (list (list Z)),
    reverse_last_axis (Array3 rows) = Ok (Array3 rows')
    /\ length rows' = length rows
    /\ map (@length (list Z)) rows' = map (@length (list Z)) rows
    /\ (forall i j : nat,
           Spec.pixel (Array3 rows') i j = @rev Z <$> Spec.pixel (Array3 rows) i j)
    /\ (forall (i j : nat) (px : list Z),
           Spec.pixel (Array3 rows') i j = Some px ->
           exists px0, Spec.pixel (Array3 rows) i j = Some px0
                       /\ px = rev px0 /\ length px = length px0)
    /\ reverse_last_axis (Array3 rows') = Ok (Array3 rows).
Proof.
  intros rows. exists (map (map (@rev Z)) rows).
  split; [reflexivity|]. split; [apply length_map|]. split; [|split; [|split]].
  - rewrite map_map. apply map_ext. intros row. apply length_map.
  - intros i j. apply pixel_reverse_last_axis.
  - intros i j px. rewrite pixel_reverse_last_axis.
    destruct (Spec.pixel (Array3 rows) i j) as [px0|]; [|discriminate].
    intros [= <-]. exists px0. split; [reflexivity|]. split; [reflexivity|].
    apply length_rev.
  - cbn [reverse_last_axis]. do 2 f_equal. rewrite map_map.
    rewrite <- (map_id rows) at 2. apply map_ext. intros row.
    rewrite map_map. rewrite <- (map_id row) at 2. apply map_ext. intros px.
    apply rev_involutive.
Qed.

End RendererAndChannels.

Section FileNames.
Import App.

Lemma lower_length (s : string) : String.length (PyStr.lower s) = String.length s.
Proof. induction s as [|c s IH]; [reflexivity|]. cbn. now rewrite IH. Qed.

Lemma lower_app (p s : string) :
  PyStr.lower (p +:+ s) = PyStr.lower p +:+ PyStr.lower s.
Proof.
  induction p as [|c p IH]; [reflexivity|].
  change (PyStr.lower (String c (p +:+ s))
          = String (PyStr.lower_ascii c) (PyStr.lower p +:+ PyStr.lower s)).
  cbn [PyStr.lower]. now rewrite IH.
Qed.

Lemma string_app_assoc (a b c : string) : (a +:+ b) +:+ c = a +:+ (b +:+ c).
Proof.
  induction a as [|x a IH]; [reflexivity|].
  change (String x ((a +:+ b) +:+ c) = String x (a +:+ (b +:+ c))). now rewrite IH.
Qed.

(** X13. Only the end of the name counts: a name of fewer than four
    characters is always rejected, and a name that is accepted stays
    accepted with anything put in front of it (a directory, another
    extension). *)
Theorem validate_file_looks_at_the_end :
  forall (name : string) (bytes : list Byte.byte),
    ((String.length name < 4)%nat ->
     validate_file (mkUploadFile (Some name) bytes)
     = (false, "Invalid file type. Allowed types: jpg, jpeg, png."))
    /\ (fst (validate_file (mkUploadFile (Some name) bytes)) = true ->
        forall front : string,
          validate_file (mkUploadFile (Some (front +:+ name)) bytes) = (true, "")).
Proof.
  intros name bytes. split.
  - intros Hlen. rewrite validate_file_named.
    unfold PyStr.endswith_any, existsb, PyStr.endswith.
    rewrite lower_length.
    replace (String.length ".jpg" <=? String.length name)%nat with false
      by (symmetry; apply Nat.leb_gt; cbn; lia).
    replace (String.length ".jpeg" <=? String.length name)%nat with false
      by (symmetry; apply Nat.leb_gt; cbn; lia).
    replace (String.length ".png" <=? String.length name)%nat with false
      by (symmetry; apply Nat.leb_gt; cbn; lia).
    reflexivity.
  - rewrite validate_file_named.
    destruct (PyStr.endswith_any (PyStr.lower name) [".jpg"; ".jpeg"; ".png"])
      eqn:Hany; [|discriminate].
    intros _ front. rewrite validate_file_named.
    apply PyStrFacts.endswith_any_spec in Hany as [suffix [p [Hin Hp]]].
    assert (PyStr.endswith_any (PyStr.lower (front +:+ name))
              [".jpg"; ".jpeg"; ".png"] = true) as ->; [|reflexivity].
    apply PyStrFacts.endswith_any_spec. exists suffix, (PyStr.lower front +:+ p).
    split; [exact Hin|]. now rewrite lower_app, Hp, string_app_assoc.
Qed.

End FileNames.

(** ** The runs on the test doubles *)

Section Runs.
Import App Double.

Lemma detect_success_path_street :
  detect (E := world two_pixels [one_person])
    (Some (mkUploadFile (Some "street.jpg") jpeg_bytes)) "fast"
  = (EvFileRead
     :: Run.full_trace jpeg_bytes "models/yolov8n.pt"
          (Array3 [[[0; 0; 255]; [30; 20; 10]]]),
     Ok (mkJSONResponse
           (Run.inference_result
              [Detect.detection_record "person" 0.5 34 63 200 360] timings)
           200)).
Proof.
  apply (detect_success_path (E := world two_pixels [one_person])
           (mkUploadFile (Some "street.jpg") jpeg_bytes) "fast" "models/yolov8n.pt"
           two_pixels "models/yolov8n.pt" [[[255; 0; 0]; [10; 20; 30]]]
           one_person []);
    reflexivity.
Defined.

Lemma detect_out_of_range_float_raises_nan :
  exists message : string,
    detect (E := world two_pixels [Faults.nan_confidence])
      (Some (mkUploadFile (Some "street.jpg") jpeg_bytes)) "fast"
    = (EvFileRead
       :: Run.full_trace jpeg_bytes "models/yolov8n.pt"
            (Array3 [[[0; 0; 255]; [30; 20; 10]]]),
       Raise (ValueError message)).
Proof.
  apply (detect_out_of_range_float_raises (E := world two_pixels [Faults.nan_confidence])
           (mkUploadFile (Some "street.jpg") jpeg_bytes) "fast" "models/yolov8n.pt"
           two_pixels "models/yolov8n.pt" [[[255; 0; 0]; [10; 20; 30]]]
           Faults.nan_confidence []
           [Detect.detection_record "person" PrimFloat.nan 34 63 200 360]);
    reflexivity.
Defined.

Lemma detect_single_band_image_raises_gray :
  detect (E := world Faults.gray_pixels [one_person])
    (Some (mkUploadFile (Some "scan.png") jpeg_bytes)) "accurate"
  = ([EvFileRead; EvImageOpen jpeg_bytes; EvLog "Loading YOLO model: %s";
      EvModelInit "models/yolov8x.pt"; EvNpArray],
     Raise IndexError).
Proof.
  apply (detect_single_band_image_raises (E := world Faults.gray_pixels [one_person])
           (mkUploadFile (Some "scan.png") jpeg_bytes) "accurate" "models/yolov8x.pt"
           Faults.gray_pixels "models/yolov8x.pt" [[0; 255]]);
    reflexivity.
Defined.

Lemma detect_weights_failure_raises_missing :
  detect (E := Faults.no_weights two_pixels)
    (Some (mkUploadFile (Some "street.jpg") jpeg_bytes)) "fast"
  = ([EvFileRead; EvImageOpen jpeg_bytes; EvLog "Loading YOLO model: %s";
      EvModelInit "models/yolov8n.pt"],
     Raise (OSError "No such file or directory")).
Proof.
  apply (detect_weights_failure_raises (E := Faults.no_weights two_pixels)
           (mkUploadFile (Some "street.jpg") jpeg_bytes) "fast" "models/yolov8n.pt"
           two_pixels);
    reflexivity.
Defined.

Lemma detect_save_failure_raises_read_only :
  detect (E := Faults.no_save two_pixels [one_person])
    (Some (mkUploadFile (Some "street.jpg") jpeg_bytes)) "fast"
  = (EvFileRead
     :: Run.full_trace jpeg_bytes "models/yolov8n.pt"
          (Array3 [[[0; 0; 255]; [30; 20; 10]]]),
     Raise (OSError "Permission denied")).
Proof.
  apply (detect_save_failure_raises (E := Faults.no_save two_pixels [one_person])
           (mkUploadFile (Some "street.jpg") jpeg_bytes) "fast" "models/yolov8n.pt"
           two_pixels "models/yolov8n.pt" [[[255; 0; 0]; [10; 20; 30]]]
           one_person []
           [Detect.detection_record "person" 0.5 34 63 200 360]);
    reflexivity.
Defined.

Lemma detect_response_shapes_no_detection :
  (App.status_code
     (mkJSONResponse (Run.inference_result [] timings) 200) = 400
   /\ trace (detect (E := world two_pixels [no_detection])
               (Some (mkUploadFile (Some "street.jpg") jpeg_bytes)) "fast") = []
   /\ exists message : string,
       App.content (mkJSONResponse (Run.inference_result [] timings) 200)
       = PyDict [("error", PyStr message)]
       /\ (message = "No image file provided"
           \/ message = "No file name provided."
           \/ message = "Invalid file type. Allowed types: jpg, jpeg, png."))
  \/ (App.status_code
        (mkJSONResponse (Run.inference_result [] timings) 200) = 200
      /\ exists (f : UploadFile) (detected_objects : list pyval) (timings0 : pyval)
                (model_path : string) (image_np : ndarray),
          Some (mkUploadFile (Some "street.jpg") jpeg_bytes) = Some f
          /\ App.content (mkJSONResponse (Run.inference_result [] timings) 200)
             = Run.inference_result detected_objects timings0
          /\ trace (detect (E := world two_pixels [no_detection])
                      (Some (mkUploadFile (Some "street.jpg") jpeg_bytes)) "fast")
             = EvFileRead :: Run.full_trace (file_content f) model_path image_np).
Proof.
  apply (detect_response_shapes (E := world two_pixels [no_detection])
           (Some (mkUploadFile (Some "street.jpg") jpeg_bytes)) "fast"
           (mkJSONResponse (Run.inference_result [] timings) 200)).
  reflexivity.
Defined.

Lemma extract_detection_results_missing_boxes_run :
  Detect.extract_detection_results [Faults.no_boxes; one_person]
  = ([EvLog "Extracting YOLO Detection Results"; EvLog "YOLO Detection Results: %s"],
     Raise (AttributeError "boxes")).
Proof.
  apply (extract_detection_results_missing_boxes Faults.no_boxes [one_person]).
  reflexivity.
Defined.

Lemma extract_detection_results_errors_unlabelled :
  Run.normalizer_error KeyError.
Proof.
  apply (extract_detection_results_errors [Faults.unlabelled] KeyError).
  reflexivity.
Defined.

Lemma validate_file_looks_at_the_end_uploads :
  validate_file (mkUploadFile (Some ("uploads/" +:+ "photo.JPG")) jpeg_bytes)
  = (true, "").
Proof.
  apply (proj2 (validate_file_looks_at_the_end "photo.JPG" jpeg_bytes)).
  reflexivity.
Defined.

(** A seventh column and other timings change nothing; a pixel with an
    alpha channel is turned around like any other. *)
Example read_part_tracked_person :
  outcome (Detect.extract_detection_results [Faults.tracked_person])
  = Ok [Detect.detection_record "person" 0.5 34 63 200 360]
  /\ Detect.reverse_last_axis Faults.rgba_pixel = Ok (Array3 [[[255; 3; 2; 1]]]).
Proof. split; vm_compute; reflexivity. Qed.

End Runs.
